(** * celery_redis_sentinel.backend: the Sentinel result backend

    A shallow embedding of [src/celery_redis_sentinel/backend.py] and the
    properties of its exception codec ([_wrap_exc], [_unwrap_exc],
    [_get_module]) and of the backend object ([__init__], [client]).

    The module is glue between the interpreter, [json], [pickle],
    [importlib] and user supplied exception classes.  Everything the
    module itself does is a definition below; everything it calls into is
    a field of a [runtime], over which the theorems quantify. *)

From Stdlib Require Import ZArith String Ascii List.
From stdpp Require Import base option gmap strings list fin_maps pretty.

Set Default Proof Using "Type".
Open Scope string_scope.
Open Scope nat_scope.

(** ** Python values *)

Definition ref := nat.   (* identity of an instance object *)
Definition mid := nat.   (* a module of the program *)
Definition fid := nat.   (* the code of a user function *)

(** Classes.  The built-in classes the module relies on are named; every
    other class, built-in or user defined, is a [CUser]. *)
Inductive cid : Type :=
| CObject
| CBaseException
| CException
| CModuleType
| CNoneType
| CUser (n : nat).

Global Instance cid_eq_dec : EqDecision cid.
Proof. solve_decision. Defined.

(** How a function stored in a class namespace binds when it is reached
    through an attribute access. *)
Inductive fkind : Type := Plain | ClassMethod | StaticMethod.

#[warnings="-register-all"]
Inductive pyval : Type :=
| VNone
| VBool (b : bool)
| VInt (n : Z)
| VFloat (repr : string)            (* a float, identified by its [repr] *)
| VStr (s : string)                 (* text *)
| VBytes (s : string)               (* a byte string *)
| VTuple (l : list pyval)
| VList (l : list pyval)
| VDict (kv : list (string * pyval)) (* text keys, in insertion order *)
| VObj (c : cid) (r : ref)          (* instance [r] of class [c] *)
| VClass (c : cid)
| VModule (m : mid)
| VFunc (k : fkind) (f : fid)
| VMethod (f : fid) (self : pyval). (* a bound method *)

(** ** Exceptions and the evaluation monad *)

(** A raised exception: the name of its class and its argument (for an
    exception object raised by foreign code, the object itself). *)
Record exn : Type := Exn { exn_type : string; exn_value : pyval }.

Definition KeyError (k : pyval) : exn := Exn "KeyError" k.
Definition TypeError (msg : string) : exn := Exn "TypeError" (VStr msg).
Definition AttributeError (name : string) : exn := Exn "AttributeError" (VStr name).

Inductive result (A : Type) : Type :=
| Ok (a : A)
| Raise (x : exn).
Arguments Ok {A} a.
Arguments Raise {A} x.

(** What is stored for an instance: the [args] tuple every exception
    carries and the instance [__dict__]. *)
Record instance : Type := Instance {
  i_args : list pyval;
  i_dict : gmap string pyval;
}.

(** The mutable state of the process: the instances and [sys.modules]. *)
Record world : Type := World {
  heap : gmap ref instance;
  sys_modules : gmap string pyval;
}.

(** Statements run in a world and either return or raise; the world they
    leave behind is kept in both cases. *)
Definition M (A : Type) : Type := world → result A * world.

Definition ret {A} (a : A) : M A := λ w, (Ok a, w).
Definition raise {A} (x : exn) : M A := λ w, (Raise x, w).
Definition bind {A B} (m : M A) (k : A → M B) : M B :=
  λ w, match m w with
       | (Ok a, w') => k a w'
       | (Raise x, w') => (Raise x, w')
       end.
Definition lift {A} (r : result A) : M A := λ w, (r, w).

(** [try: body / except: handler].  The bare [except:] of the source
    catches every exception; effects of the body are not undone. *)
Definition try_except {A} (body : M A) (handler : exn → M A) : M A :=
  λ w, match body w with
       | (Ok a, w') => (Ok a, w')
       | (Raise x, w') => handler x w'
       end.

(** A new instance of class [c] holding [args], at an unused identity. *)
Definition new_ref (w : world) : ref := fresh (dom (heap w)).

Definition new_instance (c : cid) (args : list pyval) : M pyval :=
  λ w, let r := new_ref w in
       (Ok (VObj c r), World (<[r := Instance args ∅]> (heap w)) (sys_modules w)).

Declare Scope py_scope.
Delimit Scope py_scope with py.
Notation "x <~ m ;; k" := (bind m (λ x, k))
  (at level 100, m at next level, k at level 200, right associativity) : py_scope.
Open Scope py_scope.

(** ** Classes, modules and the runtime *)

Record pyclass : Type := PyClass {
  c_name : string;                 (* [__name__] *)
  c_module : pyval;                (* [__module__] *)
  c_mro_tail : list cid;           (* [__mro__] without the class itself *)
  c_dict : gmap string pyval;      (* the class namespace *)
}.

Record pymodule : Type := PyModule {
  m_name : string;
  m_dict : gmap string pyval;
}.

(** The program the module runs in and the foreign code it calls. *)
Record runtime : Type := Runtime {
  rt_classes : nat → pyclass;              (* the classes [CUser n] *)
  rt_modules : mid → pymodule;
  rt_builtins : string;                    (* name of the built-in module *)
  rt_prim_type : pyval → cid;              (* class of the other values: int, str, type, ... *)
  rt_call : pyval → list pyval → M pyval;  (* calling a callable *)
  rt_str : pyval → M string;               (* [str()] outside the built-in exception case *)
  pickle_dumps : pyval → M pyval;
  pickle_loads : pyval → M pyval;
  json_dumps : pyval → result string;
  json_loads : string → result pyval;
  import_module : pyval → M pyval;
}.

Section Interpreter.
Variable rt : runtime.

Definition builtin_class (name : string) (tail : list cid) : pyclass :=
  PyClass name (VStr (rt_builtins rt)) tail ∅.

Definition class_info (c : cid) : pyclass :=
  match c with
  | CObject => builtin_class "object" []
  | CBaseException => builtin_class "BaseException" [CObject]
  | CException => builtin_class "Exception" [CBaseException; CObject]
  | CModuleType => builtin_class "module" [CObject]
| CNoneType => builtin_class "NoneType" [CObject]
  | CUser n => rt_classes rt n
  end.

Definition mro (c : cid) : list cid := c :: c_mro_tail (class_info c).

(** [type(v)] *)
Definition type_of (v : pyval) : cid :=
  match v with
  | VObj c _ => c
  | VModule _ => CModuleType
  | VNone => CNoneType
  | _ => rt_prim_type rt v
  end.

(** [isinstance(v, k)] *)
Definition isinstance (v : pyval) (k : cid) : bool :=
  bool_decide (k ∈ mro (type_of v)).

Fixpoint first_in_namespaces (ks : list cid) (name : string) : option pyval :=
  match ks with
  | [] => None
  | k :: ks' =>
      match c_dict (class_info k) !! name with
      | Some v => Some v
      | None => first_in_namespaces ks' name
      end
  end.

(** Lookup along the method resolution order. *)
Definition class_lookup (c : cid) (name : string) : option pyval :=
  first_in_namespaces (mro c) name.

(** What an attribute found in a class namespace becomes when reached
    through an instance. *)
Definition bind_instance (self : pyval) (found : pyval) : pyval :=
  match found with
  | VFunc Plain f => VMethod f self
  | VFunc ClassMethod f => VMethod f (VClass (type_of self))
  | other => other
  end.

(** ... and when reached through the class [c] itself. *)
Definition bind_class (c : cid) (found : pyval) : pyval :=
  match found with
  | VFunc ClassMethod f => VMethod f (VClass c)
  | other => other
  end.

(** Attribute resolution: the object's own namespace first, then the
    classes.  Properties, [__getattr__] hooks and metaclasses are not
    modelled, nor are the built-in attributes of primitive values. *)
Definition lookup_attr (w : world) (v : pyval) (name : string) : option pyval :=
  match v with
  | VObj c r =>
      match heap w !! r ≫= (λ i, i_dict i !! name) with
      | Some x => Some x
      | None => bind_instance v <$> class_lookup c name
      end
  | VClass c => bind_class c <$> class_lookup c name
  | VModule m => m_dict (rt_modules rt m) !! name
  | _ => bind_instance v <$> class_lookup (type_of v) name
  end.

(** [hasattr(v, name)] *)
Definition hasattr (v : pyval) (name : string) : M bool :=
  λ w, (Ok (bool_decide (is_Some (lookup_attr w v name))), w).

(** [v.name] *)
Definition get_attr (v : pyval) (name : string) : M pyval :=
  λ w, match lookup_attr w v name with
       | Some x => (Ok x, w)
       | None => (Raise (AttributeError name), w)
       end.

(** [getattr(v, name)] with a computed name *)
Definition getattr (v : pyval) (name : pyval) : M pyval :=
  match name with
  | VStr s => get_attr v s
  | _ => raise (TypeError "attribute name must be string")
  end.

(** [callee(args...)] *)
Definition py_call (callee : pyval) (args : list pyval) : M pyval :=
  match callee with
  | VMethod f self => rt_call rt (VFunc Plain f) (self :: args)
  | _ => rt_call rt callee args
  end.

(** [str(v)].  An exception class that does not define [__str__] uses
    [BaseException.__str__]: the empty text without arguments, the text
    of a single text argument. *)
Definition py_str (v : pyval) : M string :=
  match v with
  | VStr s => ret s
  | VObj c r =>
      match class_lookup c "__str__" with
      | Some f => λ w,
          match py_call (bind_instance v f) [] w with
          | (Ok (VStr s), w') => (Ok s, w')
          | (Ok _, w') => (Raise (TypeError "__str__ returned non-string"), w')
          | (Raise x, w') => (Raise x, w')
          end
      | None => λ w,
          if isinstance v CBaseException then
            match i_args <$> heap w !! r with
            | Some [] => (Ok EmptyString, w)
            | Some [VStr s] => (Ok s, w)
            | _ => rt_str rt v w
            end
          else rt_str rt v w
      end
  | _ => rt_str rt v
  end.

(** [Exception(text)]: a new instance of the built-in base class. *)
Definition new_exception (text : string) : M pyval :=
  new_instance CException [VStr text].

(** [d[k]] for a text key [k].  Only dicts accept one. *)
Fixpoint assoc (kv : list (string * pyval)) (k : string) : option pyval :=
  match kv with
  | [] => None
  | (k', v) :: kv' => if decide (k' = k) then Some v else assoc kv' k
  end.

Definition subscript (d : pyval) (k : string) : result pyval :=
  match d with
  | VDict kv =>
      match assoc kv k with
      | Some v => Ok v
      | None => Raise (KeyError (VStr k))
      end
  | _ => Raise (TypeError "indices must be integers")
  end.

(** [sys.modules.get(name)]; the registry has text keys. *)
Definition modules_get (name : pyval) : M pyval :=
  match name with
  | VStr s => λ w, (Ok (default VNone (sys_modules w !! s)), w)
  | VList _ | VDict _ => raise (TypeError "unhashable type")
  | _ => ret VNone
  end.

(** ** The exception codec (backend.py, lines 74-104) *)

Definition envelope (type module data : pyval) : pyval :=
  VDict [("type", type); ("module", module); ("data", data)].

(** The [try] block of [_wrap_exc]. *)
Definition wrap_body (e : pyval) : M pyval :=
  let type := VStr (c_name (class_info (type_of e))) in
  let module := c_module (class_info (type_of e)) in
  has <~ hasattr e "serialize";;
  data <~ (if has : bool
           then (serialize <~ get_attr e "serialize";; py_call serialize [])
           else pickle_dumps rt e);;
  text <~ lift (json_dumps rt (envelope type module data));;
  new_exception text.

Definition _wrap_exc (e : pyval) : M pyval :=
  try_except (wrap_body e) (λ _, ret e).

Definition _get_module (module_name : pyval) : M pyval :=
  module <~ modules_get module_name;;
  if isinstance module CModuleType then ret module
  else import_module rt module_name.

(** Lines 89-92: from the parsed envelope to the exception. *)
Definition reconstruct (exc : pyval) : M pyval :=
  module_name <~ lift (subscript exc "module");;
  module <~ _get_module module_name;;
  type <~ lift (subscript exc "type");;
  cls <~ getattr module type;;
  has <~ hasattr cls "deserialize";;
  if has : bool then
    deserialize <~ get_attr cls "deserialize";;
    data <~ lift (subscript exc "data");;
    py_call deserialize [data]
  else
    data <~ lift (subscript exc "data");;
    pickle_loads rt data.

(** The [try] block of [_unwrap_exc]. *)
Definition unwrap_body (e : pyval) : M pyval :=
  s <~ py_str e;;
  exc <~ lift (json_loads rt s);;
  reconstruct exc.

Definition _unwrap_exc (e : pyval) : M pyval :=
  try_except (unwrap_body e) (λ _, ret e).

End Interpreter.

(** [_unwrap_exc(_wrap_exc(e))] *)
Definition roundtrip (rt : runtime) (e : pyval) : M pyval :=
  wrapped <~ _wrap_exc rt e;; _unwrap_exc rt wrapped.

(** The [args] an instance holds. *)
Definition args_of (w : world) (v : pyval) : option (list pyval) :=
  match v with
  | VObj _ r => i_args <$> heap w !! r
  | _ => None
  end.

(** The envelope [_wrap_exc] builds for [e] around [data]. *)
Definition envelope_of (rt : runtime) (e data : pyval) : pyval :=
  envelope (VStr (c_name (class_info rt (type_of rt e))))
           (c_module (class_info rt (type_of rt e))) data.

(** The world after [Exception(text)] was built in [w]. *)
Definition with_exception (w : world) (text : string) : world :=
  World (<[new_ref w := Instance [VStr text] ∅]> (heap w)) (sys_modules w).

(** The [data] of the envelope: [e.serialize()] when [e] has the
    attribute, [pickle.dumps(e)] otherwise. *)
Definition wrap_data (rt : runtime) (e : pyval) : M pyval :=
  λ w, match lookup_attr rt w e "serialize" with
       | Some serialize => py_call rt serialize [] w
       | None => pickle_dumps rt e w
       end.

(** The class lookup and the choice between the two reconstructions,
    once the module is there. *)
Definition rebuild (rt : runtime) (exc module : pyval) : M pyval :=
  λ w, match subscript exc "type" with
       | Raise x => (Raise x, w)
       | Ok type =>
           match getattr rt module type w with
           | (Raise x, w') => (Raise x, w')
           | (Ok cls, w') =>
               match lookup_attr rt w' cls "deserialize", subscript exc "data" with
               | _, Raise x => (Raise x, w')
               | Some deserialize, Ok data => py_call rt deserialize [data] w'
               | None, Ok data => pickle_loads rt data w'
               end
           end
       end.












(** ** A reference runtime

    A small executable runtime on which the definitions above can be run:
    a JSON codec for the values an envelope is made of, a pickle codec for
    exception instances with text arguments, one importable module and a
    handful of exception classes.  It comes in two flavours, which differ
    where Python 2 and Python 3 differ for this module: whether a byte
    string is JSON text and whether [pickle.loads] reads text. *)

Module Reference.

Inductive flavour : Type := Py2 | Py3.

Definition chr (n : nat) : string := String (ascii_of_nat n) EmptyString.
Definition dquote : string := chr 34.
Definition newline : string := chr 10.
Definition code (c : ascii) : nat := nat_of_ascii c.

Definition ValueError (msg : string) : exn := Exn "ValueError" (VStr msg).
Definition ImportError (name : pyval) : exn := Exn "ImportError" name.
Definition PicklingError (v : pyval) : exn := Exn "PicklingError" v.
Definition UnpicklingError (v : pyval) : exn := Exn "UnpicklingError" v.

Definition of_option {A} (o : option A) (x : exn) : result A :=
  match o with Some a => Ok a | None => Raise x end.

(** *** json *)

Definition hex_digit (n : nat) : string :=
  chr (if n <? 10 then 48 + n else 87 + n).

(** One character of a JSON string, as [json.dumps] writes it with
    [ensure_ascii]. *)
Definition json_escape (c : ascii) : string :=
  let n := code c in
  if n =? 34 then "\" +:+ dquote
  else if n =? 92 then "\\"
  else if n =? 10 then "\n"
  else if n =? 13 then "\r"
  else if n =? 9 then "\t"
  else if n =? 8 then "\b"
  else if n =? 12 then "\f"
  else if (n <? 32) || (126 <? n)
       then "\u00" +:+ hex_digit (n / 16) +:+ hex_digit (n mod 16)
  else String c EmptyString.

Fixpoint json_escape_all (s : string) : string :=
  match s with
  | EmptyString => EmptyString
  | String c s' => json_escape c +:+ json_escape_all s'
  end.

Definition json_quote (s : string) : string :=
  dquote +:+ json_escape_all s +:+ dquote.

Fixpoint is_ascii (s : string) : bool :=
  match s with
  | EmptyString => true
  | String c s' => (code c <? 128) && is_ascii s'
  end.

Fixpoint join (sep : string) (l : list string) : string :=
  match l with
  | [] => EmptyString
  | [x] => x
  | x :: l' => x +:+ sep +:+ join sep l'
  end.

Definition json_float (r : string) : string :=
  if decide (r = "inf") then "Infinity"
  else if decide (r = "-inf") then "-Infinity"
  else if decide (r = "nan") then "NaN"
  else r.

(** [json.dumps] with its default separators.  [None] stands for the
    error it raises on a value that is not JSON serializable. *)
Fixpoint dumps (fl : flavour) (v : pyval) : option string :=
  match v with
  | VNone => Some "null"
  | VBool true => Some "true"
  | VBool false => Some "false"
  | VInt n => Some (pretty n)
  | VFloat r => Some (json_float r)
  | VStr s => Some (json_quote s)
  | VBytes s =>
      match fl with
      | Py2 => if is_ascii s then Some (json_quote s) else None
      | Py3 => None
      end
  | VTuple l | VList l =>
      (fix items (l : list pyval) : option (list string) :=
         match l with
         | [] => Some []
         | x :: l' =>
             match dumps fl x, items l' with
             | Some a, Some b => Some (a :: b)
             | _, _ => None
             end
         end) l ≫= λ parts, Some ("[" +:+ join ", " parts +:+ "]")
  | VDict kv =>
      (fix members (kv : list (string * pyval)) : option (list string) :=
         match kv with
         | [] => Some []
         | (k, x) :: kv' =>
             match dumps fl x, members kv' with
             | Some a, Some b => Some ((json_quote k +:+ ": " +:+ a) :: b)
             | _, _ => None
             end
         end) kv ≫= λ parts, Some ("{" +:+ join ", " parts +:+ "}")
  | _ => None
  end.

Definition json_dumps (fl : flavour) (v : pyval) : result string :=
  of_option (dumps fl v) (TypeError "not JSON serializable").

Definition is_ws (c : ascii) : bool :=
  let n := code c in (n =? 32) || (n =? 9) || (n =? 10) || (n =? 13).

Fixpoint skip_ws (s : string) : string :=
  match s with
  | String c r => if is_ws c then skip_ws r else s
  | EmptyString => s
  end.

Definition hex_value (c : ascii) : option nat :=
  let n := code c in
  if (48 <=? n) && (n <=? 57) then Some (n - 48)
  else if (97 <=? n) && (n <=? 102) then Some (n - 87)
  else if (65 <=? n) && (n <=? 70) then Some (n - 55)
  else None.

Definition unescape (c : ascii) : option string :=
  let n := code c in
  if n =? 34 then Some dquote
  else if n =? 92 then Some "\"
  else if n =? 47 then Some "/"
  else if n =? 98 then Some (chr 8)
  else if n =? 102 then Some (chr 12)
  else if n =? 110 then Some (chr 10)
  else if n =? 114 then Some (chr 13)
  else if n =? 116 then Some (chr 9)
  else None.

(** The rest of a JSON string after its opening quote: the text it
    denotes and what follows the closing quote.  Code points above 255
    are outside the reference codec. *)
Fixpoint parse_string (s : string) : option (string * string) :=
  match s with
  | EmptyString => None
  | String c r =>
      let n := code c in
      if n =? 34 then Some (EmptyString, r)
      else if n =? 92 then
        match r with
        | String "u" (String a (String b (String h (String l r2)))) =>
            match hex_value a, hex_value b, hex_value h, hex_value l with
            | Some 0, Some 0, Some x, Some y =>
                '(t, rest) ← parse_string r2; Some (chr (16 * x + y) +:+ t, rest)
            | _, _, _, _ => None
            end
        | String e r1 =>
            u ← unescape e; '(t, rest) ← parse_string r1; Some (u +:+ t, rest)
        | EmptyString => None
        end
      else if n <? 32 then None
      else '(t, rest) ← parse_string r; Some (String c t, rest)
  end.

Definition is_digit (c : ascii) : bool := (48 <=? code c) && (code c <=? 57).

Fixpoint parse_digits (s : string) (acc : Z) (count : nat) : Z * nat * string :=
  match s with
  | String c r =>
      if is_digit c
      then parse_digits r (10 * acc + Z.of_nat (code c - 48))%Z (S count)
      else (acc, count, s)
  | EmptyString => (acc, count, s)
  end.

Definition leading_zero (s : string) : bool :=
  match s with
  | String "0" (String c _) => is_digit c
  | _ => false
  end.

Definition starts_fraction (s : string) : bool :=
  match s with
  | String "." _ | String "e" _ | String "E" _ => true
  | _ => false
  end.

(** An integer literal.  Literals with a fraction or an exponent are
    outside the reference codec. *)
Definition parse_int (s : string) : option (pyval * string) :=
  let '(neg, body) := match s with
                      | String "-" r => (true, r)
                      | _ => (false, s)
                      end in
  let '(n, count, rest) := parse_digits body 0%Z 0 in
  if (count =? 0) || leading_zero body || starts_fraction rest then None
  else Some (VInt (if neg : bool then - n else n)%Z, rest).

(** [d[k] = v] on an insertion-ordered dict. *)
Fixpoint dict_set (kv : list (string * pyval)) (k : string) (v : pyval)
    : list (string * pyval) :=
  match kv with
  | [] => [(k, v)]
  | (k', v') :: kv' =>
      if decide (k' = k) then (k', v) :: kv' else (k', v') :: dict_set kv' k v
  end.

Definition dict_of_pairs (kv : list (string * pyval)) : list (string * pyval) :=
  fold_left (λ acc p, dict_set acc p.1 p.2) kv [].

Fixpoint parse_value (fuel : nat) (s : string) : option (pyval * string) :=
  match fuel with
  | 0 => None
  | S fuel' =>
      match skip_ws s with
      | EmptyString => None
      | String "{" r =>
          match skip_ws r with
          | String "}" r' => Some (VDict [], r')
          | _ => '(kv, rest) ← parse_members fuel' r;
                 Some (VDict (dict_of_pairs kv), rest)
          end
      | String "[" r =>
          match skip_ws r with
          | String "]" r' => Some (VList [], r')
          | _ => '(vs, rest) ← parse_elements fuel' r; Some (VList vs, rest)
          end
      | String "n" (String "u" (String "l" (String "l" r))) => Some (VNone, r)
      | String "t" (String "r" (String "u" (String "e" r))) => Some (VBool true, r)
      | String "f" (String "a" (String "l" (String "s" (String "e" r)))) =>
          Some (VBool false, r)
      | String c r =>
          if code c =? 34
          then '(t, rest) ← parse_string r; Some (VStr t, rest)
          else parse_int (String c r)
      end
  end
with parse_elements (fuel : nat) (s : string) : option (list pyval * string) :=
  match fuel with
  | 0 => None
  | S fuel' =>
      '(v, rest) ← parse_value fuel' s;
      match skip_ws rest with
      | String "," r => '(vs, rest') ← parse_elements fuel' r; Some (v :: vs, rest')
      | String "]" r => Some ([v], r)
      | _ => None
      end
  end
with parse_members (fuel : nat) (s : string)
    : option (list (string * pyval) * string) :=
  match fuel with
  | 0 => None
  | S fuel' =>
      match skip_ws s with
      | String q r =>
          if code q =? 34 then
            '(k, rest) ← parse_string r;
            match skip_ws rest with
            | String ":" r1 =>
                '(v, rest1) ← parse_value fuel' r1;
                match skip_ws rest1 with
                | String "," r2 =>
                    '(kv, rest2) ← parse_members fuel' r2; Some ((k, v) :: kv, rest2)
                | String "}" r2 => Some ([(k, v)], r2)
                | _ => None
                end
            | _ => None
            end
          else None
      | EmptyString => None
      end
  end.

(** [json.loads]: one value, surrounded by white space only. *)
Definition json_loads (s : string) : result pyval :=
  match parse_value (2 * String.length s + 2) s with
  | Some (v, rest) =>
      match skip_ws rest with
      | EmptyString => Ok v
      | _ => Raise (ValueError "Extra data")
      end
  | None => Raise (ValueError "No JSON object could be decoded")
  end.

(** *** The program: classes, one module, three functions *)

Definition builtins (fl : flavour) : string :=
  match fl with Py2 => "exceptions" | Py3 => "builtins" end.

Definition prim_class (fl : flavour) (name : string) : pyclass :=
  PyClass name (VStr (builtins fl)) [CObject] ∅.

Definition error_class (name : string) (dict : gmap string pyval) : pyclass :=
  PyClass name (VStr "app.errors") [CException; CBaseException; CObject] dict.

Definition MyError : cid := CUser 20.
Definition CodedError : cid := CUser 21.
Definition BrokenError : cid := CUser 23.

Definition codec_methods : gmap string pyval :=
  {[ "serialize" := VFunc Plain 0; "deserialize" := VFunc ClassMethod 1 ]}.

(** [MyError] is a plain subclass of [Exception]; [CodedError] adds
    [serialize] and a class method [deserialize]; [LocalError] is the
    same class defined inside a function, so that its module has no
    attribute of its name; [serialize] of [BrokenError] raises. *)
Definition classes (fl : flavour) (n : nat) : pyclass :=
  match n with
  | 1 => prim_class fl "bool"
  | 2 => prim_class fl "int"
  | 3 => prim_class fl "float"
  | 4 => prim_class fl "str"
  | 5 => prim_class fl "bytes"
  | 6 => prim_class fl "tuple"
  | 7 => prim_class fl "list"
  | 8 => prim_class fl "dict"
  | 9 => prim_class fl "type"
  | 10 => prim_class fl "function"
  | 20 => error_class "MyError" ∅
  | 21 => error_class "CodedError" codec_methods
  | 22 => error_class "LocalError" codec_methods
  | 23 => error_class "BrokenError" {[ "serialize" := VFunc Plain 2 ]}
  | 24 => error_class "HiddenError" ∅
  | _ => prim_class fl "method"
  end.

Definition prim_type (v : pyval) : cid :=
  match v with
  | VNone => CNoneType
  | VBool _ => CUser 1
  | VInt _ => CUser 2
  | VFloat _ => CUser 3
  | VStr _ => CUser 4
  | VBytes _ => CUser 5
  | VTuple _ => CUser 6
  | VList _ => CUser 7
  | VDict _ => CUser 8
  | VClass _ => CUser 9
  | VFunc _ _ => CUser 10
  | VMethod _ _ => CUser 11
  | VObj c _ => c
  | VModule _ => CModuleType
  end.

Definition app_errors : pymodule :=
  PyModule "app.errors"
    {[ "MyError" := VClass MyError; "CodedError" := VClass CodedError;
       "BrokenError" := VClass BrokenError ]}.

Definition modules (m : mid) : pymodule :=
  match m with
  | 0 => app_errors
  | _ => PyModule "empty" ∅
  end.

(** [importlib.import_module]: the registry entry when there is one,
    else the module found on the path, which is then registered. *)
Definition import_module (name : pyval) : M pyval :=
  match name with
  | VStr s => λ w,
      match sys_modules w !! s with
      | Some VNone => (Raise (ImportError name), w)
      | Some m => (Ok m, w)
      | None =>
          if decide (s = "app.errors")
          then (Ok (VModule 0), World (heap w) (<[s := VModule 0]> (sys_modules w)))
          else (Raise (ImportError name), w)
      end
  | _ => raise (TypeError "module name must be a string")
  end.

Definition is_error_class (fl : flavour) (c : cid) : bool :=
  match c with
  | CBaseException | CException => true
  | CUser n => bool_decide (CBaseException ∈ c_mro_tail (classes fl n))
  | _ => false
  end.

(** Calling a class makes an instance; function 0 is
    [serialize(self): return self.args[0]], function 1 is
    [deserialize(cls, data): return cls(data)], function 2 raises. *)
Definition call (fl : flavour) (callee : pyval) (args : list pyval) : M pyval :=
  match callee, args with
  | VClass c, _ =>
      if is_error_class fl c then new_instance c args
      else raise (TypeError "cannot create instances")
  | VFunc _ 0, [VObj _ r] => λ w,
      match i_args <$> heap w !! r with
      | Some (a :: _) => (Ok a, w)
      | _ => (Raise (Exn "IndexError" VNone), w)
      end
  | VFunc _ 1, [VClass c; data] =>
      if is_error_class fl c then new_instance c [data]
      else raise (TypeError "cannot create instances")
  | VFunc _ 2, [self] => raise (Exn "RuntimeError" self)
  | _, _ => raise (TypeError "not callable with these arguments")
  end.

Definition str (fl : flavour) (v : pyval) : M string :=
  match v with
  | VNone => ret "None"
  | VBool true => ret "True"
  | VBool false => ret "False"
  | VInt n => ret (pretty n)
  | VFloat r => ret r
  | VBytes s => ret (match fl with Py2 => s | Py3 => "b'" +:+ s +:+ "'" end)
  | _ => ret "<object>"
  end.

(** *** pickle, for exception instances with text arguments

    The payload is the protocol 0 program that rebuilds the instance:
    [c module / name] pushes the class, [(] and [V text] lines push the
    arguments, [t] makes the tuple, [R] calls and [.] stops. *)

Fixpoint is_plain (s : string) : bool :=
  match s with
  | EmptyString => true
  | String c s' =>
      (32 <=? code c) && (code c <? 127) && negb (code c =? 92) && is_plain s'
  end.

Fixpoint pickle_args (args : list pyval) : option string :=
  match args with
  | [] => Some EmptyString
  | VStr a :: args' =>
      if is_plain a
      then rest ← pickle_args args'; Some ("V" +:+ a +:+ newline +:+ rest)
      else None
  | _ => None
  end.

Definition resolve (m name : string) : M pyval :=
  module <~ import_module (VStr m);;
  match module with
  | VModule k => lift (of_option (m_dict (modules k) !! name) (AttributeError name))
  | _ => raise (AttributeError name)
  end.

Definition pickle_dumps (fl : flavour) (v : pyval) : M pyval :=
  match v with
  | VObj (CUser n) r =>
      match c_module (classes fl n) with
      | VStr m =>
          try_except
            (found <~ resolve m (c_name (classes fl n));;
             match found with
             | VClass (CUser n') =>
                 if decide (n' = n) then λ w,
                   match heap w !! r ≫= λ i, pickle_args (i_args i) with
                   | Some args =>
                       (Ok (VBytes ("c" +:+ m +:+ newline +:+ c_name (classes fl n)
                                    +:+ newline +:+ "(" +:+ args +:+ "tR.")), w)
                   | None => (Raise (PicklingError v), w)
                   end
                 else raise (PicklingError v)
             | _ => raise (PicklingError v)
             end)
            (λ _, raise (PicklingError v))
      | _ => raise (PicklingError v)
      end
  | _ => raise (PicklingError v)
  end.

Fixpoint read_line (s : string) : option (string * string) :=
  match s with
  | EmptyString => None
  | String c r =>
      if code c =? 10 then Some (EmptyString, r)
      else '(line, rest) ← read_line r; Some (String c line, rest)
  end.

Fixpoint read_args (fuel : nat) (s : string) : option (list pyval) :=
  match fuel, s with
  | S fuel', String "V" r =>
      '(a, rest) ← read_line r; args ← read_args fuel' rest; Some (VStr a :: args)
  | _, _ => if decide (s = "tR.") then Some [] else None
  end.

Definition read_pickle (s : string) : option (string * string * list pyval) :=
  match s with
  | String "c" r =>
      '(m, r1) ← read_line r;
      '(name, r2) ← read_line r1;
      match r2 with
      | String "(" r3 => args ← read_args (String.length r3) r3; Some (m, name, args)
      | _ => None
      end
  | _ => None
  end.

Definition pickle_loads (fl : flavour) (v : pyval) : M pyval :=
  let payload := match v, fl with
                 | VBytes s, _ => Some s
                 | VStr s, Py2 => if is_ascii s then Some s else None
                 | _, _ => None
                 end in
  match payload with
  | None => raise (TypeError "a bytes-like object is required")
  | Some s =>
      match read_pickle s with
      | Some (m, name, args) => cls <~ resolve m name;; call fl cls args
      | None => raise (UnpicklingError v)
      end
  end.

Definition rt (fl : flavour) : runtime :=
  Runtime (classes fl) modules (builtins fl) prim_type (call fl) (str fl)
    (pickle_dumps fl) (pickle_loads fl) (json_dumps fl) json_loads import_module.

(** A process that has imported [app.errors] and raised four errors. *)
Definition boom : pyval := VObj MyError 0.
Definition coded : pyval := VObj CodedError 1.
Definition broken : pyval := VObj BrokenError 3.

Definition w0 : world :=
  World {[ 0 := Instance [VStr "boom"] ∅; 1 := Instance [VStr "disk full"] ∅;
           2 := Instance [VStr "lost"] ∅; 3 := Instance [VStr "bad"] ∅ ]}
        {[ "app.errors" := VModule 0 ]}.

Definition py2 : runtime := rt Py2.
Definition py3 : runtime := rt Py3.

(** The wrapper of [coded] and the world it is built in. *)
Definition coded_wrapper : pyval := VObj CException 4.
Definition coded_envelope : pyval :=
  envelope (VStr "CodedError") (VStr "app.errors") (VStr "disk full").
Definition coded_text : string :=
  match json_dumps Py3 coded_envelope with
  | Ok text => text
  | Raise _ => EmptyString
  end.
Definition w_coded : world := with_exception w0 coded_text.

(** The error [deserialize] makes of the transported data, and the
    world it is made in. *)
Definition coded_again : pyval := VObj CodedError 5.
Definition w_again : world :=
  World (<[5 := Instance [VStr "disk full"] ∅]> (heap w_coded)) (sys_modules w_coded).

End Reference.

(** ** The backend object (backend.py, lines 32-64) *)

Module Backend.

(** The two classes the client class is derived from; both are defined
    outside this file. *)
Inductive base_class : Type := EnsuredRedisMixin | Redis.

(** A class made by [type(name, bases, dict)]. *)
Record dynclass : Type := DynClass {
  d_name : string;
  d_bases : list base_class;
  d_dict : gmap string pyval;
}.

(** What [RedisBackend.__init__] leaves on the instance, as far as this
    module reads it: the application configuration, whose entry
    [CELERY_RESULT_BACKEND_TRANSPORT_OPTIONS] is a dict when present,
    and the connection parameters. *)
Record base : Type := Base {
  conf : gmap string (gmap string pyval);
  base_connparams : gmap string pyval;
}.

Section WithClient.
Variable Client : Type.

(** [redis_sentinel.get_redis_via_sentinel(redis_class=k, **params)],
    imported from a module that is not part of this file. *)
Variable get_redis_via_sentinel : dynclass → gmap string pyval → result Client.

Record backend : Type := BackendObj {
  connparams : gmap string pyval;
  transport_options : option (gmap string pyval);
  sentinels : pyval;
  service_name : pyval;
  socket_timeout : pyval;
  (** the slot [cached_property] fills in the instance [__dict__] *)
  cached_client : option Client;
  (** every call made to [get_redis_via_sentinel], oldest first *)
  constructed : list (dynclass * gmap string pyval);
}.

(** Truth value of [None] or a dict. *)
Definition truthy (d : option (gmap string pyval)) : bool :=
  match d with
  | Some m => bool_decide (m ≠ ∅)
  | None => false
  end.

(** [a or b] *)
Definition py_or (a b : option (gmap string pyval)) : option (gmap string pyval) :=
  if truthy a then a else b.

(** [d[k]] *)
Definition getitem (d : option (gmap string pyval)) (k : string) : result pyval :=
  match d with
  | Some m =>
      match m !! k with
      | Some v => Ok v
      | None => Raise (KeyError (VStr k))
      end
  | None => Raise (TypeError "'NoneType' object is not subscriptable")
  end.

(** [d.get(k, dflt)] *)
Definition dict_get (d : option (gmap string pyval)) (k : string) (dflt : pyval)
    : result pyval :=
  match d with
  | Some m => Ok (default dflt (m !! k))
  | None => Raise (AttributeError "get")
  end.

Definition and_then {A B} (r : result A) (k : A → result B) : result B :=
  match r with
  | Ok a => k a
  | Raise x => Raise x
  end.

(** The options [__init__] reads: the argument, else the configured
    ones, else the empty dict. *)
Definition effective_options (self : base) (transport_options : option (gmap string pyval))
    : option (gmap string pyval) :=
  let _get := λ k, conf self !! k in
  py_or transport_options
    (py_or (_get "CELERY_RESULT_BACKEND_TRANSPORT_OPTIONS") (Some ∅)).

(** [super_init] is the outcome of [RedisBackend.__init__]. *)
Definition __init__ (super_init : result base)
    (transport_options : option (gmap string pyval)) : result backend :=
  and_then super_init (λ self,
    let transport_options := effective_options self transport_options in
    and_then (getitem transport_options "sentinels") (λ sentinels,
    and_then (getitem transport_options "service_name") (λ service_name,
    and_then (dict_get transport_options "socket_timeout" (VFloat "0.1"))
      (λ socket_timeout,
    Ok (BackendObj (base_connparams self) transport_options
          sentinels service_name socket_timeout None []))))).

(** The three fields [client] adds to the connection parameters. *)
Definition sentinel_fields (self : backend) : gmap string pyval :=
  {[ "sentinels" := sentinels self;
     "service_name" := service_name self;
     "socket_timeout" := socket_timeout self ]}.

(** [type(str('Redis'), (EnsuredRedisMixin, Redis), {})].  Every evaluation
    makes a new class object; its name, bases and namespace are kept
    here, its identity is not. *)
Definition redis_class : dynclass := DynClass "Redis" [EnsuredRedisMixin; Redis] ∅.

Definition set_connparams (self : backend) (params : gmap string pyval) : backend :=
  BackendObj params (transport_options self) (sentinels self) (service_name self)
    (socket_timeout self) (cached_client self) (constructed self).

Definition set_cached_client (self : backend) (c : Client) : backend :=
  BackendObj (connparams self) (transport_options self) (sentinels self)
    (service_name self) (socket_timeout self) (Some c) (constructed self).

Definition record_call (self : backend) (k : dynclass) (params : gmap string pyval)
    : backend :=
  BackendObj (connparams self) (transport_options self) (sentinels self)
    (service_name self) (socket_timeout self) (cached_client self)
    (constructed self ++ [(k, params)]).

(** [params.update(...)]: the new entries win. *)
Definition merged_params (self : backend) : gmap string pyval :=
  sentinel_fields self ∪ connparams self.

(** The body of the property.  [params] is [self.connparams] itself,
    so [update] changes the instance; a keyword given twice is a
    [TypeError] of the call. *)
Definition client_body (self : backend) : result Client * backend :=
  let params := merged_params self in
  let self := set_connparams self params in
  if decide (is_Some (params !! "redis_class"))
  then (Raise (TypeError "got multiple values for keyword argument"), self)
  else (get_redis_via_sentinel redis_class params,
        record_call self redis_class params).

(** [self.client], through [cached_property]: the stored value when
    there is one, else the body's value, which is then stored. *)
Definition client (self : backend) : result Client * backend :=
  match cached_client self with
  | Some c => (Ok c, self)
  | None =>
      match client_body self with
      | (Ok c, self') => (Ok c, set_cached_client self' c)
      | (Raise x, self') => (Raise x, self')
      end
  end.

(** [n] accesses in a row: the values read and the instance left. *)
Fixpoint accesses (n : nat) (self : backend) : list (result Client) * backend :=
  match n with
  | 0 => ([], self)
  | S n' =>
      let '(r, self') := client self in
      let '(rs, self'') := accesses n' self' in
      (r :: rs, self'')
  end.

(** The outcome is an exception of the class named [cls]. *)
Definition fails_with {A} (r : result A) (cls : string) : Prop :=
  ∃ x, r = Raise x ∧ exn_type x = cls.

End WithClient.

Arguments connparams {Client} _.
Arguments transport_options {Client} _.
Arguments sentinels {Client} _.
Arguments service_name {Client} _.
Arguments socket_timeout {Client} _.
Arguments cached_client {Client} _.
Arguments constructed {Client} _.
Arguments BackendObj {Client} _ _ _ _ _ _ _.

(** A factory for running the definitions: the client is the class it
    was asked to instantiate together with its keyword arguments. *)
Definition plain_factory (k : dynclass) (params : gmap string pyval)
    : result (dynclass * gmap string pyval) := Ok (k, params).

Definition three_sentinels : pyval :=
  VList [VTuple [VStr "192.168.1.1"; VInt 26379];
         VTuple [VStr "192.168.1.2"; VInt 26379];
         VTuple [VStr "192.168.1.3"; VInt 26379]].

Definition base0 : base :=
  Base ∅ {[ "host" := VStr "localhost"; "port" := VInt 6379; "db" := VInt 0 ]}.

Definition sample_options : gmap string pyval :=
  {[ "sentinels" := three_sentinels; "service_name" := VStr "master" ]}.

Definition no_sentinels : gmap string pyval := {[ "service_name" := VStr "master" ]}.

(** The backend [__init__] makes of [base0] and [sample_options]. *)
Definition backend0 : backend (dynclass * gmap string pyval) :=
  BackendObj (base_connparams base0) (Some sample_options) three_sentinels
    (VStr "master") (VFloat "0.1") None [].

End Backend.

(** ** The two hooks of the result backend (backend.py, lines 66-72) *)

Section Hooks.
Variable rt : runtime.

(** [RedisBackend.prepare_exception] and [RedisBackend.exception_to_python],
    the methods of the base class the hooks delegate to. *)
Variable super_prepare_exception : pyval → pyval → M pyval.
Variable super_exception_to_python : pyval → M pyval.

Definition prepare_exception (exc serializer : pyval) : M pyval :=
  exc <~ _wrap_exc rt exc;;
  super_prepare_exception exc serializer.

Definition exception_to_python (exc : pyval) : M pyval :=
  exc <~ super_exception_to_python exc;;
  _unwrap_exc rt exc.

End Hooks.

(** The runtime [rt] with another [pickle.dumps]. *)
Definition with_pickle_dumps (rt : runtime) (dumps : pyval → M pyval) : runtime :=
  Runtime (rt_classes rt) (rt_modules rt) (rt_builtins rt) (rt_prim_type rt)
    (rt_call rt) (rt_str rt) dumps (pickle_loads rt) (json_dumps rt)
    (json_loads rt) (import_module rt).

(** The parsed payload [v] names no module [sys.modules] could be asked
    for: it is no dict, or has no [module] entry, or the entry is a list
    or a dict. *)
Definition names_no_module (v : pyval) : Prop :=
  match v with
  | VDict kv =>
      match assoc kv "module" with
      | None | Some (VList _) | Some (VDict _) => True
      | Some _ => False
      end
  | _ => True
  end.

(** More inputs for the reference runtime and the backend. *)
Module Samples.

(** An error whose message is the JSON text of a list. *)
Definition listy : pyval := VObj Reference.MyError 0.
Definition w_list : world :=
  World {[ 0 := Instance [VStr "[1, 2]"] ∅ ]} {[ "app.errors" := VModule 0 ]}.

(** A [MyError] whose message is the text of [Reference.coded_wrapper]. *)
Definition twin : pyval := VObj Reference.MyError 6.
Definition w_twins : world :=
  World (<[6 := Instance [VStr Reference.coded_text] ∅]> (heap Reference.w_coded))
        (sys_modules Reference.w_coded).





(** A [pickle.dumps] that always raises. *)
Definition no_pickle (v : pyval) : M pyval := raise (Reference.PicklingError v).

(** A factory that cannot reach any sentinel. *)
Definition failing_factory (k : Backend.dynclass) (params : gmap string pyval)
    : result unit := Raise (Exn "ConnectionError" VNone).

(** A base object whose configuration holds the sample options. *)
Definition configured_base : Backend.base :=
  Backend.Base {[ "CELERY_RESULT_BACKEND_TRANSPORT_OPTIONS" := Backend.sample_options ]}
    (Backend.base_connparams Backend.base0).

(** A backend on [failing_factory], and one whose connection parameters
    already hold the keyword [redis_class]. *)
Definition unreachable_backend : Backend.backend unit :=
  Backend.BackendObj (Backend.base_connparams Backend.base0)
    (Some Backend.sample_options) Backend.three_sentinels (VStr "master")
    (VFloat "0.1") None [].

Definition clashing_backend : Backend.backend unit :=
  Backend.BackendObj {[ "redis_class" := VNone ]}
    (Some Backend.sample_options) Backend.three_sentinels (VStr "master")
    (VFloat "0.1") None [].

End Samples.

(** * Properties *)

Import Backend.

(** ** The evaluation monad *)

Lemma bind_ok {A B} (m : M A) (k : A → M B) w a w' :
  m w = (Ok a, w') → bind m k w = k a w'.
Proof. intros H. unfold bind. by rewrite H. Qed.

Lemma bind_raise {A B} (m : M A) (k : A → M B) w x w' :
  m w = (Raise x, w') → bind m k w = (Raise x, w').
Proof. intros H. unfold bind. by rewrite H. Qed.

Lemma try_except_ok {A} (body : M A) h w a w' :
  body w = (Ok a, w') → try_except body h w = (Ok a, w').
Proof. intros H. unfold try_except. by rewrite H. Qed.

Lemma try_except_raise {A} (body : M A) h w x w' :
  body w = (Raise x, w') → try_except body h w = h x w'.
Proof. intros H. unfold try_except. by rewrite H. Qed.

(** A handler that returns makes the whole statement return. *)
Lemma try_except_returns {A} (body : M A) (a0 : A) w :
  ∃ a w', try_except body (λ _, ret a0) w = (Ok a, w').
Proof.
  unfold try_except. destruct (body w) as [[a|x] w']; eauto.
Qed.

Lemma new_ref_fresh w : heap w !! new_ref w = None.
Proof.
  unfold new_ref. apply (not_elem_of_dom (D := gset ref)). apply is_fresh.
Qed.

Lemma new_exception_run text w :
  new_exception text w = (Ok (VObj CException (new_ref w)), with_exception w text).
Proof. reflexivity. Qed.

Lemma hasattr_run rt v name w :
  hasattr rt v name w = (Ok (bool_decide (is_Some (lookup_attr rt w v name))), w).
Proof. reflexivity. Qed.

Lemma hasattr_true rt v name w x :
  lookup_attr rt w v name = Some x → hasattr rt v name w = (Ok true, w).
Proof. intros H. rewrite hasattr_run, bool_decide_eq_true_2; eauto. Qed.

Lemma hasattr_false rt v name w :
  lookup_attr rt w v name = None → hasattr rt v name w = (Ok false, w).
Proof.
  intros H. rewrite hasattr_run, bool_decide_eq_false_2; [done|].
  rewrite H. by intros [? ?].
Qed.

Lemma get_attr_found rt v name w x :
  lookup_attr rt w v name = Some x → get_attr rt v name w = (Ok x, w).
Proof. intros H. unfold get_attr. by rewrite H. Qed.

Lemma isinstance_own_class rt c r : isinstance rt (VObj c r) c = true.
Proof. apply bool_decide_eq_true. unfold mro. simpl. left. Qed.

(** ** Wrapping *)

Section WrapFacts.
Variable rt : runtime.

Lemma wrap_body_unfold e w :
  wrap_body rt e w =
    match wrap_data rt e w with
    | (Ok data, w1) =>
        match json_dumps rt (envelope_of rt e data) with
        | Ok text => (Ok (VObj CException (new_ref w1)), with_exception w1 text)
        | Raise x => (Raise x, w1)
        end
    | (Raise x, w1) => (Raise x, w1)
    end.
Proof.
  unfold wrap_body, wrap_data, envelope_of.
  destruct (lookup_attr rt w e "serialize") as [f|] eqn:Hf.
  - rewrite (bind_ok _ _ _ _ _ (hasattr_true _ _ _ _ _ Hf)).
    unfold bind at 1. unfold bind at 1.
    rewrite (get_attr_found _ _ _ _ _ Hf).
    destruct (py_call rt f [] w) as [[d|x] w1]; [|done].
    unfold bind, lift. destruct (json_dumps rt _); done.
  - rewrite (bind_ok _ _ _ _ _ (hasattr_false _ _ _ _ Hf)).
    unfold bind at 1.
    destruct (pickle_dumps rt e w) as [[d|x] w1]; [|done].
    unfold bind, lift. destruct (json_dumps rt _); done.
Qed.

Lemma wrap_exc_of_raise e w x w' :
  wrap_body rt e w = (Raise x, w') → _wrap_exc rt e w = (Ok e, w').
Proof. intros H. unfold _wrap_exc. by rewrite (try_except_raise _ _ _ _ _ H). Qed.

Lemma wrap_exc_of_ok e w r w' :
  wrap_body rt e w = (Ok r, w') → _wrap_exc rt e w = (Ok r, w').
Proof. intros H. unfold _wrap_exc. by rewrite (try_except_ok _ _ _ _ _ H). Qed.

(** C1.  [_wrap_exc] returns for every input, and whenever a step of
    building the envelope raises it returns the input itself: when
    [serialize] raises, when the object cannot be pickled, when the
    envelope is not JSON serializable. *)
Theorem wrap_exc_never_raises e w :
  (∃ r w', _wrap_exc rt e w = (Ok r, w')) ∧
  (∀ x w', wrap_body rt e w = (Raise x, w') → _wrap_exc rt e w = (Ok e, w')) ∧
  (∀ serialize x w',
     lookup_attr rt w e "serialize" = Some serialize →
     py_call rt serialize [] w = (Raise x, w') → _wrap_exc rt e w = (Ok e, w')) ∧
  (∀ x w',
     lookup_attr rt w e "serialize" = None →
     pickle_dumps rt e w = (Raise x, w') → _wrap_exc rt e w = (Ok e, w')) ∧
  (∀ data x w',
     wrap_data rt e w = (Ok data, w') →
     json_dumps rt (envelope_of rt e data) = Raise x → _wrap_exc rt e w = (Ok e, w')).
Proof.
  split; [apply try_except_returns|].
  split; [apply wrap_exc_of_raise|].
  repeat split.
  - intros f x w' Hf Hcall. apply (wrap_exc_of_raise _ _ x).
    rewrite wrap_body_unfold. unfold wrap_data. by rewrite Hf, Hcall.
  - intros x w' Hf Hp. apply (wrap_exc_of_raise _ _ x).
    rewrite wrap_body_unfold. unfold wrap_data. by rewrite Hf, Hp.
  - intros d x w' Hd Hj. apply (wrap_exc_of_raise _ _ x).
    rewrite wrap_body_unfold. by rewrite Hd, Hj.
Qed.

(** A successful [try] block, step by step. *)
Lemma wrap_body_ok_inv e w r w' :
  wrap_body rt e w = (Ok r, w') →
  ∃ data w1 text,
    wrap_data rt e w = (Ok data, w1) ∧
    json_dumps rt (envelope_of rt e data) = Ok text ∧
    r = VObj CException (new_ref w1) ∧
    w' = with_exception w1 text.
Proof.
  rewrite wrap_body_unfold. intros H.
  destruct (wrap_data rt e w) as [[d|x] w1] eqn:Hd; [|discriminate].
  destruct (json_dumps rt (envelope_of rt e d)) as [text|x] eqn:Hj; [|discriminate].
  inversion H; subst. by exists d, w1, text.
Qed.

Lemma args_of_new_exception w text :
  args_of (with_exception w text) (VObj CException (new_ref w)) = Some [VStr text].
Proof. simpl. by rewrite lookup_insert_eq. Qed.

(** C4.  When wrapping succeeds the result is a new [Exception] whose
    single argument is the JSON text of the dict with exactly the keys
    [type], [module] and [data]: the class name, the class's
    [__module__], and [e.serialize()] when [e] has the attribute, the
    pickle of [e] otherwise. *)
Theorem wrap_exc_envelope e w r w' :
  wrap_body rt e w = (Ok r, w') →
  ∃ data w1 text,
    match lookup_attr rt w e "serialize" with
    | Some serialize => py_call rt serialize [] w = (Ok data, w1)
    | None => pickle_dumps rt e w = (Ok data, w1)
    end ∧
    json_dumps rt
      (VDict [("type", VStr (c_name (class_info rt (type_of rt e))));
              ("module", c_module (class_info rt (type_of rt e)));
              ("data", data)]) = Ok text ∧
    r = VObj CException (new_ref w1) ∧
    heap w1 !! new_ref w1 = None ∧
    args_of w' r = Some [VStr text] ∧
    _wrap_exc rt e w = (Ok r, w').
Proof.
  intros H. pose proof (wrap_exc_of_ok _ _ _ _ H) as Hwrap.
  destruct (wrap_body_ok_inv _ _ _ _ H) as (d & w1 & text & Hd & Hj & -> & ->).
  exists d, w1, text. repeat split; try done.
  - unfold wrap_data in Hd. by destruct (lookup_attr rt w e "serialize").
  - apply new_ref_fresh.
  - apply args_of_new_exception.
Qed.

(** C10.  For an exception [e], what [_wrap_exc] returns is an instance
    of [Exception]: [e] itself, or an instance of exactly the base class
    [Exception], at an identity that was unused, holding the JSON text of
    the envelope. *)
Theorem wrap_exc_returns_exception e w :
  isinstance rt e CException = true →
  ∃ r w', _wrap_exc rt e w = (Ok r, w') ∧
    isinstance rt r CException = true ∧
    (r = e ∨
     ∃ data w1 text,
       json_dumps rt (envelope_of rt e data) = Ok text ∧
       r = VObj CException (new_ref w1) ∧
       type_of rt r = CException ∧
       heap w1 !! new_ref w1 = None ∧
       w' = with_exception w1 text ∧
       args_of w' r = Some [VStr text]).
Proof.
  intros He.
  destruct (wrap_body rt e w) as [[r|x] w'] eqn:Hbody.
  - exists r, w'. split; [by apply wrap_exc_of_ok|].
    destruct (wrap_body_ok_inv _ _ _ _ Hbody) as (d & w1 & text & _ & Hj & -> & ->).
    split; [apply isinstance_own_class|]. right.
    exists d, w1, text. repeat split; try done.
    + apply new_ref_fresh.
    + apply args_of_new_exception.
  - exists e, w'. split; [by eapply wrap_exc_of_raise|]. by split; [|left].
Qed.

End WrapFacts.

(** ** Unwrapping *)

Section UnwrapFacts.
Variable rt : runtime.

(** [None] is no module: a missing registry entry leads to the import. *)
Lemma None_is_no_module : isinstance rt VNone CModuleType = false.
Proof.
  apply bool_decide_eq_false. unfold mro; simpl.
  intros H. repeat (apply elem_of_cons in H as [H|H]; [discriminate|]).
  by apply elem_of_nil in H.
Qed.

Lemma get_module_unfold name w :
  _get_module rt (VStr name) w =
    match sys_modules w !! name with
    | Some m => if isinstance rt m CModuleType then (Ok m, w)
                else import_module rt (VStr name) w
    | None => import_module rt (VStr name) w
    end.
Proof.
  unfold _get_module, bind, modules_get.
  destruct (sys_modules w !! name) as [m|]; unfold default, id.
  - by destruct (isinstance rt m CModuleType).
  - by rewrite None_is_no_module.
Qed.

Lemma reconstruct_unfold exc w :
  reconstruct rt exc w =
    match subscript exc "module" with
    | Raise x => (Raise x, w)
    | Ok module_name =>
        match _get_module rt module_name w with
        | (Raise x, w') => (Raise x, w')
        | (Ok module, w') => rebuild rt exc module w'
        end
    end.
Proof.
  unfold reconstruct, rebuild. unfold bind at 1. unfold lift at 1.
  destruct (subscript exc "module") as [mn|x]; [|done].
  unfold bind at 1.
  destruct (_get_module rt mn w) as [[md|x] w1]; [|done].
  unfold bind at 1. unfold lift at 1.
  destruct (subscript exc "type") as [t|x]; [|done].
  unfold bind at 1.
  destruct (getattr rt md t w1) as [[cls|x] w2]; [|done].
  destruct (lookup_attr rt w2 cls "deserialize") as [f|] eqn:Hf.
  - rewrite (bind_ok _ _ _ _ _ (hasattr_true _ _ _ _ _ Hf)).
    rewrite (bind_ok _ _ _ _ _ (get_attr_found _ _ _ _ _ Hf)).
    unfold bind, lift. by destruct (subscript exc "data").
  - rewrite (bind_ok _ _ _ _ _ (hasattr_false _ _ _ _ Hf)).
    unfold bind, lift. by destruct (subscript exc "data").
Qed.

Lemma unwrap_body_unfold e w :
  unwrap_body rt e w =
    match py_str rt e w with
    | (Raise x, w') => (Raise x, w')
    | (Ok s, w') =>
        match json_loads rt s with
        | Raise x => (Raise x, w')
        | Ok exc => reconstruct rt exc w'
        end
    end.
Proof.
  unfold unwrap_body, bind, lift.
  destruct (py_str rt e w) as [[s|x] w']; [|done].
  by destruct (json_loads rt s).
Qed.

Lemma unwrap_exc_of_raise e w x w' :
  unwrap_body rt e w = (Raise x, w') → _unwrap_exc rt e w = (Ok e, w').
Proof. intros H. unfold _unwrap_exc. by rewrite (try_except_raise _ _ _ _ _ H). Qed.

Lemma unwrap_exc_of_ok e w r w' :
  unwrap_body rt e w = (Ok r, w') → _unwrap_exc rt e w = (Ok r, w').
Proof. intros H. unfold _unwrap_exc. by rewrite (try_except_ok _ _ _ _ _ H). Qed.

Lemma getattr_found module type cls w :
  lookup_attr rt w module type = Some cls →
  getattr rt module (VStr type) w = (Ok cls, w).
Proof. intros H. simpl. by apply get_attr_found. Qed.

Lemma getattr_missing module type w :
  lookup_attr rt w module type = None →
  getattr rt module (VStr type) w = (Raise (AttributeError type), w).
Proof. intros H. simpl. unfold get_attr. by rewrite H. Qed.

(** What [_unwrap_exc] makes of a parsed envelope. *)
Lemma unwrap_exc_parsed e w s w1 exc :
  py_str rt e w = (Ok s, w1) → json_loads rt s = Ok exc →
  _unwrap_exc rt e w =
    match reconstruct rt exc w1 with
    | (Ok r, w') => (Ok r, w')
    | (Raise _, w') => (Ok e, w')
    end.
Proof.
  intros Hs Hj. unfold _unwrap_exc, try_except.
  rewrite unwrap_body_unfold, Hs, Hj.
  by destruct (reconstruct rt exc w1) as [[?|?] ?].
Qed.

(** C2.  [_unwrap_exc] returns for every input, and whenever a step of
    the reconstruction raises it returns the input itself: when the
    payload is not JSON, when it is not an envelope, when the module
    cannot be had, when the module has no such class, when
    [deserialize] or [pickle.loads] raises. *)
Theorem unwrap_exc_never_raises e w :
  (∃ r w', _unwrap_exc rt e w = (Ok r, w')) ∧
  (∀ x w', unwrap_body rt e w = (Raise x, w') → _unwrap_exc rt e w = (Ok e, w')) ∧
  (∀ s w1 x,
     py_str rt e w = (Ok s, w1) → json_loads rt s = Raise x →
     _unwrap_exc rt e w = (Ok e, w1)) ∧
  (∀ s w1 exc k x,
     py_str rt e w = (Ok s, w1) → json_loads rt s = Ok exc →
     k = "module" ∨ k = "type" ∨ k = "data" → subscript exc k = Raise x →
     ∃ w', _unwrap_exc rt e w = (Ok e, w')) ∧
  (∀ s w1 exc module_name x w2,
     py_str rt e w = (Ok s, w1) → json_loads rt s = Ok exc →
     subscript exc "module" = Ok module_name →
     _get_module rt module_name w1 = (Raise x, w2) →
     _unwrap_exc rt e w = (Ok e, w2)) ∧
  (∀ s w1 exc module_name module w2 type,
     py_str rt e w = (Ok s, w1) → json_loads rt s = Ok exc →
     subscript exc "module" = Ok module_name →
     _get_module rt module_name w1 = (Ok module, w2) →
     subscript exc "type" = Ok (VStr type) →
     lookup_attr rt w2 module type = None →
     _unwrap_exc rt e w = (Ok e, w2)) ∧
  (∀ s w1 exc module_name module w2 type cls data x w3,
     py_str rt e w = (Ok s, w1) → json_loads rt s = Ok exc →
     subscript exc "module" = Ok module_name →
     _get_module rt module_name w1 = (Ok module, w2) →
     subscript exc "type" = Ok (VStr type) →
     lookup_attr rt w2 module type = Some cls →
     subscript exc "data" = Ok data →
     match lookup_attr rt w2 cls "deserialize" with
     | Some deserialize => py_call rt deserialize [data] w2
     | None => pickle_loads rt data w2
     end = (Raise x, w3) →
     _unwrap_exc rt e w = (Ok e, w3)).
Proof.
  split; [apply try_except_returns|].
  split; [apply unwrap_exc_of_raise|].
  repeat split.
  - intros s w1 x Hs Hj. apply (unwrap_exc_of_raise _ _ x).
    by rewrite unwrap_body_unfold, Hs, Hj.
  - intros s w1 exc k x Hs Hj Hk Hsub.
    rewrite (unwrap_exc_parsed _ _ _ _ _ Hs Hj), reconstruct_unfold.
    destruct (subscript exc "module") as [mn|?] eqn:Hm; [|eauto].
    destruct (_get_module rt mn w1) as [[md|?] w2]; [|eauto].
    unfold rebuild.
    destruct (subscript exc "type") as [t|?] eqn:Ht; [|eauto].
    destruct (getattr rt md t w2) as [[cls|?] w3]; [|eauto].
    destruct (subscript exc "data") as [d|?] eqn:Hd;
      [|destruct (lookup_attr rt w3 cls "deserialize"); eauto].
    destruct Hk as [-> | [-> | ->]]; congruence.
  - intros s w1 exc mn x w2 Hs Hj Hm Hg.
    rewrite (unwrap_exc_parsed _ _ _ _ _ Hs Hj), reconstruct_unfold.
    by rewrite Hm, Hg.
  - intros s w1 exc mn md w2 t Hs Hj Hm Hg Ht Hcls.
    rewrite (unwrap_exc_parsed _ _ _ _ _ Hs Hj), reconstruct_unfold.
    rewrite Hm, Hg. unfold rebuild.
    by rewrite Ht, (getattr_missing _ _ _ Hcls).
  - intros s w1 exc mn md w2 t cls d x w3 Hs Hj Hm Hg Ht Hcls Hd Hrun.
    rewrite (unwrap_exc_parsed _ _ _ _ _ Hs Hj), reconstruct_unfold.
    rewrite Hm, Hg. unfold rebuild.
    rewrite Ht, (getattr_found _ _ _ _ Hcls), Hd.
    destruct (lookup_attr rt w2 cls "deserialize"); by rewrite Hrun.
Qed.

(** C5.  For an input whose text is an envelope: the module is the
    entry of [sys.modules] when that entry is a module object and the
    result of [import_module] in every other case; the class is the
    attribute of the module named by [type]; the result is what the
    class's [deserialize] returns on [data] when the class has one, and
    what [pickle.loads] returns on [data] when it has none. *)
Theorem unwrap_exc_follows_envelope e w s w1 exc module_name type data :
  py_str rt e w = (Ok s, w1) → json_loads rt s = Ok exc →
  subscript exc "module" = Ok (VStr module_name) →
  subscript exc "type" = Ok (VStr type) →
  subscript exc "data" = Ok data →
  (∀ m, sys_modules w1 !! module_name = Some m →
        isinstance rt m CModuleType = true →
        _get_module rt (VStr module_name) w1 = (Ok m, w1)) ∧
  ((∀ m, sys_modules w1 !! module_name = Some m →
         isinstance rt m CModuleType = false) →
   _get_module rt (VStr module_name) w1 = import_module rt (VStr module_name) w1) ∧
  (∀ module w2 cls,
     _get_module rt (VStr module_name) w1 = (Ok module, w2) →
     lookup_attr rt w2 module type = Some cls →
     (∀ deserialize r w3,
        lookup_attr rt w2 cls "deserialize" = Some deserialize →
        py_call rt deserialize [data] w2 = (Ok r, w3) →
        _unwrap_exc rt e w = (Ok r, w3)) ∧
     (∀ r w3,
        lookup_attr rt w2 cls "deserialize" = None →
        pickle_loads rt data w2 = (Ok r, w3) →
        _unwrap_exc rt e w = (Ok r, w3))).
Proof.
  intros Hs Hj Hm Ht Hd. split; [|split].
  - intros m Hreg Hmod. by rewrite get_module_unfold, Hreg, Hmod.
  - intros Hno. rewrite get_module_unfold.
    destruct (sys_modules w1 !! module_name) as [m|]; [|done].
    by rewrite (Hno m eq_refl).
  - intros md w2 cls Hg Hcls.
    assert (_unwrap_exc rt e w =
              match match lookup_attr rt w2 cls "deserialize" with
                    | Some deserialize => py_call rt deserialize [data] w2
                    | None => pickle_loads rt data w2
                    end with
              | (Ok r, w') => (Ok r, w')
              | (Raise _, w') => (Ok e, w')
              end) as ->.
    { rewrite (unwrap_exc_parsed _ _ _ _ _ Hs Hj), reconstruct_unfold.
      rewrite Hm, Hg. unfold rebuild.
      rewrite Ht, (getattr_found _ _ _ _ Hcls), Hd.
      by destruct (lookup_attr rt w2 cls "deserialize"). }
    split.
    + intros f r w3 Hf Hcall. by rewrite Hf, Hcall.
    + intros r w3 Hf Hp. by rewrite Hf, Hp.
Qed.

End UnwrapFacts.

(** ** Wrapping, then unwrapping *)

Section RoundtripFacts.
Variable rt : runtime.












End RoundtripFacts.

(** ** The backend object *)

Section BackendFacts.
Context {Client : Type}.
Variable get_redis_via_sentinel : dynclass → gmap string pyval → result Client.

Variable class_of : Client → dynclass.

Abbreviation init := (__init__ Client).
Abbreviation access := (client Client get_redis_via_sentinel).

Lemma truthy_of_lookup (m : gmap string pyval) k v :
  m !! k = Some v → truthy (Some m) = true.
Proof.
  intros Hk. apply bool_decide_eq_true. intros ->.
  by rewrite lookup_empty in Hk.
Qed.

Lemma effective_options_arg self (m : gmap string pyval) k v :
  m !! k = Some v → effective_options self (Some m) = Some m.
Proof.
  intros Hk. unfold effective_options, py_or.
  by rewrite (truthy_of_lookup m k v Hk).
Qed.

Lemma effective_options_is_Some self arg : is_Some (effective_options self arg).
Proof.
  unfold effective_options, py_or.
  destruct (truthy arg) eqn:Ha.
  - destruct arg; [eauto | discriminate].
  - destruct (truthy (conf self !! _)) eqn:Hc; [|eauto].
    destruct (conf self !! _); [eauto | discriminate].
Qed.

(** What the constructor returns when both required keys are there. *)
Lemma init_ok self arg (m : gmap string pyval) s n :
  effective_options self arg = Some m →
  m !! "sentinels" = Some s → m !! "service_name" = Some n →
  init (Ok self) arg =
    Ok (BackendObj (base_connparams self) (Some m) s n
          (default (VFloat "0.1") (m !! "socket_timeout")) None []).
Proof.
  intros He Hs Hn. unfold __init__; simpl.
  rewrite He; simpl. by rewrite Hs, Hn.
Qed.

(** C6, as amended.  When the options the constructor reads lack
    [sentinels], construction fails at once with [KeyError] on
    [sentinels], also when [service_name] is missing too; when they hold
    [sentinels] but lack [service_name], it fails with [KeyError] on
    [service_name]. *)
Theorem init_missing_key_raises_KeyError self arg (m : gmap string pyval) :
  effective_options self arg = Some m →
  (m !! "sentinels" = None →
   init (Ok self) arg = Raise (KeyError (VStr "sentinels"))) ∧
  (is_Some (m !! "sentinels") → m !! "service_name" = None →
   init (Ok self) arg = Raise (KeyError (VStr "service_name"))) ∧
  (m !! "sentinels" = None ∨ m !! "service_name" = None →
   fails_with (init (Ok self) arg) "KeyError").
Proof.
  intros He. unfold __init__; simpl. rewrite He; simpl.
  split; [by intros ->|]. split.
  - by intros [s ->] ->.
  - intros Hmiss. destruct (m !! "sentinels") as [s|] eqn:Hs.
    + destruct Hmiss as [Hd | ->]; [discriminate|]. by eexists.
    + by eexists.
Qed.

(** C9.  With both required keys present the constructor succeeds;
    [socket_timeout] is the configured value when there is one and
    [0.1] otherwise. *)
Theorem init_socket_timeout_default self arg (m : gmap string pyval) s n :
  arg = Some m ∨ effective_options self arg = Some m →
  m !! "sentinels" = Some s → m !! "service_name" = Some n →
  ∃ b, init (Ok self) arg = Ok b ∧
       sentinels b = s ∧ service_name b = n ∧
       (m !! "socket_timeout" = None → socket_timeout b = VFloat "0.1") ∧
       (∀ t, m !! "socket_timeout" = Some t → socket_timeout b = t).
Proof.
  intros Hsrc Hs Hn.
  assert (effective_options self arg = Some m) as He.
  { destruct Hsrc as [->|]; [|done]. by eapply effective_options_arg. }
  eexists. split; [by eapply init_ok|]. simpl.
  repeat split.
  - by intros ->.
  - by intros t ->.
Qed.

(** The constructor builds no client. *)
Lemma init_builds_nothing super arg b :
  init super arg = Ok b → cached_client b = None ∧ constructed b = [].
Proof.
  unfold __init__, and_then. intros H.
  repeat match type of H with
         | match ?r with _ => _ end = _ => destruct r; try discriminate
         end.
  by inversion H.
Qed.

Lemma merged_params_fields (b : backend Client) :
  merged_params _ b !! "sentinels" = Some (sentinels b) ∧
  merged_params _ b !! "service_name" = Some (service_name b) ∧
  merged_params _ b !! "socket_timeout" = Some (socket_timeout b).
Proof.
  unfold merged_params, sentinel_fields.
  repeat split; apply lookup_union_Some_l; by simplify_map_eq.
Qed.

Lemma merged_params_other (b : backend Client) k :
  k ≠ "sentinels" → k ≠ "service_name" → k ≠ "socket_timeout" →
  merged_params _ b !! k = connparams b !! k.
Proof.
  intros H1 H2 H3. unfold merged_params, sentinel_fields.
  apply lookup_union_r. by simplify_map_eq.
Qed.

(** The first read of the property: one call, whose value is stored. *)
Lemma client_first (b : backend Client) c :
  cached_client b = None →
  connparams b !! "redis_class" = None →
  get_redis_via_sentinel redis_class (merged_params _ b) = Ok c →
  access b =
    (Ok c, set_cached_client _
             (record_call _ (set_connparams _ b (merged_params _ b))
                redis_class (merged_params _ b)) c).
Proof.
  intros Hnone Hkw Hmk. unfold client, client_body. rewrite Hnone.
  destruct (decide _) as [[v Hv]|_].
  - rewrite merged_params_other in Hv by done. congruence.
  - by rewrite Hmk.
Qed.

(** Later reads return the stored value and touch nothing. *)
Lemma accesses_cached (b : backend Client) c n :
  cached_client b = Some c →
  accesses _ get_redis_via_sentinel n b = (replicate n (Ok c), b).
Proof.
  intros Hc. induction n as [|n IH]; [done|].
  simpl. unfold client. rewrite Hc. by rewrite IH.
Qed.

(** C8.  The constructor builds no client.  The first read of [client]
    calls the factory once, with the class [Redis] derived from
    [EnsuredRedisMixin] and [Redis] and with the connection parameters
    updated by [sentinels], [service_name] and [socket_timeout]; every
    read returns that client.  The client's class is the one handed to
    the factory when the factory instantiates the class it is given. *)
Theorem client_lazy_cached_merged super arg b c :
  init super arg = Ok b →
  connparams b !! "redis_class" = None →
  get_redis_via_sentinel redis_class (merged_params _ b) = Ok c →
  (∀ k p c', get_redis_via_sentinel k p = Ok c' → class_of c' = k) →
  (cached_client b = None ∧ constructed b = []) ∧
  (∀ n, ∃ b',
      accesses _ get_redis_via_sentinel (S n) b = (replicate (S n) (Ok c), b') ∧
      cached_client b' = Some c ∧
      constructed b' = [(redis_class, merged_params _ b)] ∧
      connparams b' = merged_params _ b) ∧
  (merged_params _ b !! "sentinels" = Some (sentinels b) ∧
   merged_params _ b !! "service_name" = Some (service_name b) ∧
   merged_params _ b !! "socket_timeout" = Some (socket_timeout b) ∧
   ∀ k, k ≠ "sentinels" → k ≠ "service_name" → k ≠ "socket_timeout" →
        merged_params _ b !! k = connparams b !! k) ∧
  d_name (class_of c) = "Redis" ∧
  d_bases (class_of c) = [EnsuredRedisMixin; Redis].
Proof.
  intros Hinit Hkw Hmk Hinst.
  destruct (init_builds_nothing _ _ _ Hinit) as [Hnone Hlog].
  split; [done|]. split; [|split].
  - intros n. eexists. simpl.
    rewrite (client_first b c Hnone Hkw Hmk).
    rewrite (accesses_cached _ c n) by done.
    repeat split; simpl. by rewrite Hlog.
  - destruct (merged_params_fields b) as (? & ? & ?).
    repeat split; try done. apply merged_params_other.
  - by rewrite (Hinst _ _ _ Hmk).
Qed.

End BackendFacts.

(** C6 as stated fails: with [sentinels] missing the constructor raises
    [KeyError], and no [ConfigurationError]. *)
Lemma init_missing_key_not_ConfigurationError :
  no_sentinels !! "sentinels" = None ∧
  ¬ fails_with (__init__ unit (Ok base0) (Some no_sentinels)) "ConfigurationError".
Proof.
  split; [done|]. intros (x & Hx & Hcls).
  vm_compute in Hx. inversion Hx; subst. discriminate.
Qed.

Lemma init_missing_key_raises_KeyError_witness :
  __init__ unit (Ok base0) None = Raise (KeyError (VStr "sentinels")) ∧
  __init__ unit (Ok base0) (Some no_sentinels) = Raise (KeyError (VStr "sentinels")) ∧
  __init__ unit (Ok base0) (Some {[ "sentinels" := three_sentinels ]})
    = Raise (KeyError (VStr "service_name")).
Proof.
  split; [|split].
  - apply (init_missing_key_raises_KeyError (Client := unit) base0 None ∅);
      reflexivity.
  - apply (init_missing_key_raises_KeyError (Client := unit) base0
             (Some no_sentinels) no_sentinels); reflexivity.
  - apply (init_missing_key_raises_KeyError (Client := unit) base0
             (Some {[ "sentinels" := three_sentinels ]})
             {[ "sentinels" := three_sentinels ]});
      [reflexivity|by eexists|reflexivity].
Defined.

Lemma init_socket_timeout_default_witness :
  ∃ b, __init__ unit (Ok base0) (Some sample_options) = Ok b ∧
       sentinels b = three_sentinels ∧ service_name b = VStr "master" ∧
       (sample_options !! "socket_timeout" = None → socket_timeout b = VFloat "0.1") ∧
       (∀ t, sample_options !! "socket_timeout" = Some t → socket_timeout b = t).
Proof.
  apply (init_socket_timeout_default base0 (Some sample_options) sample_options).
  - left. reflexivity.
  - reflexivity.
  - reflexivity.
Defined.

(** ** The properties on the reference runtime *)

Section ReferenceRuns.

(** [serialize] of [Reference.broken] raises: the input comes back. *)
Lemma wrap_exc_never_raises_witness :
  _wrap_exc Reference.py3 Reference.broken Reference.w0
    = (Ok Reference.broken, Reference.w0).
Proof.
  destruct (wrap_exc_never_raises Reference.py3 Reference.broken Reference.w0)
    as (_ & _ & Hser & _).
  apply (Hser (VMethod 2 Reference.broken) (Exn "RuntimeError" Reference.broken) Reference.w0);
    vm_compute; reflexivity.
Defined.

(** The text of [Reference.boom] is no JSON: the input comes back. *)
Lemma unwrap_exc_never_raises_witness :
  _unwrap_exc Reference.py3 Reference.boom Reference.w0
    = (Ok Reference.boom, Reference.w0).
Proof.
  destruct (unwrap_exc_never_raises Reference.py3 Reference.boom Reference.w0)
    as (_ & _ & Hjson & _).
  apply (Hjson "boom" Reference.w0 (Reference.ValueError "No JSON object could be decoded"));
    vm_compute; reflexivity.
Defined.

Lemma wrap_exc_envelope_witness :
  ∃ data w1 text,
    match lookup_attr Reference.py3 Reference.w0 Reference.coded "serialize" with
    | Some serialize => py_call Reference.py3 serialize [] Reference.w0 = (Ok data, w1)
    | None => pickle_dumps Reference.py3 Reference.coded Reference.w0 = (Ok data, w1)
    end ∧
    json_dumps Reference.py3
      (VDict [("type", VStr "CodedError"); ("module", VStr "app.errors");
              ("data", data)]) = Ok text ∧
    Reference.coded_wrapper = VObj CException (new_ref w1) ∧
    heap w1 !! new_ref w1 = None ∧
    args_of Reference.w_coded Reference.coded_wrapper = Some [VStr text] ∧
    _wrap_exc Reference.py3 Reference.coded Reference.w0
      = (Ok Reference.coded_wrapper, Reference.w_coded).
Proof.
  apply (wrap_exc_envelope Reference.py3 Reference.coded Reference.w0
           Reference.coded_wrapper Reference.w_coded).
  vm_compute. reflexivity.
Defined.

Lemma wrap_exc_returns_exception_witness :
  ∃ r w', _wrap_exc Reference.py3 Reference.coded Reference.w0 = (Ok r, w') ∧
    isinstance Reference.py3 r CException = true ∧
    (r = Reference.coded ∨
     ∃ data w1 text,
       json_dumps Reference.py3 (envelope_of Reference.py3 Reference.coded data) = Ok text ∧
       r = VObj CException (new_ref w1) ∧
       type_of Reference.py3 r = CException ∧
       heap w1 !! new_ref w1 = None ∧
       w' = with_exception w1 text ∧
       args_of w' r = Some [VStr text]).
Proof.
  apply (wrap_exc_returns_exception Reference.py3 Reference.coded Reference.w0).
  vm_compute. reflexivity.
Defined.

Lemma unwrap_exc_follows_envelope_witness :
  _get_module Reference.py3 (VStr "app.errors") Reference.w_coded
    = (Ok (VModule 0), Reference.w_coded) ∧
  _unwrap_exc Reference.py3 Reference.coded_wrapper Reference.w_coded
    = (Ok Reference.coded_again, Reference.w_again).
Proof.
  assert (py_str Reference.py3 Reference.coded_wrapper Reference.w_coded
            = (Ok Reference.coded_text, Reference.w_coded)) as Hs
    by (vm_compute; reflexivity).
  assert (json_loads Reference.py3 Reference.coded_text = Ok Reference.coded_envelope)
    as Hj by (vm_compute; reflexivity).
  destruct (unwrap_exc_follows_envelope Reference.py3 Reference.coded_wrapper
              Reference.w_coded Reference.coded_text Reference.w_coded
              Reference.coded_envelope "app.errors" "CodedError" (VStr "disk full")
              Hs Hj eq_refl eq_refl eq_refl)
    as (Hreuse & _ & Hrest).
  split.
  - apply (Hreuse (VModule 0)); vm_compute; reflexivity.
  - assert (_get_module Reference.py3 (VStr "app.errors") Reference.w_coded
              = (Ok (VModule 0), Reference.w_coded)) as Hg
      by (vm_compute; reflexivity).
    assert (lookup_attr Reference.py3 Reference.w_coded (VModule 0) "CodedError"
              = Some (VClass Reference.CodedError)) as Hcls
      by (vm_compute; reflexivity).
    destruct (Hrest (VModule 0) Reference.w_coded (VClass Reference.CodedError) Hg Hcls)
      as [Hdes _].
    apply (Hdes (VMethod 1 (VClass Reference.CodedError))); vm_compute; reflexivity.
Defined.











(** On the Python 3 flavour the pickle is a byte string, which is no
    JSON: the error itself comes back.  On the Python 2 flavour it
    travels as text and is rebuilt. *)
Example roundtrip_boom_py3 :
  roundtrip Reference.py3 Reference.boom Reference.w0 = (Ok Reference.boom, Reference.w0).
Proof. vm_compute. reflexivity. Qed.

Example roundtrip_boom_py2 :
  ∃ w', roundtrip Reference.py2 Reference.boom Reference.w0
          = (Ok (VObj Reference.MyError 5), w') ∧
        args_of w' (VObj Reference.MyError 5) = Some [VStr "boom"].
Proof. eexists. split; vm_compute; reflexivity. Qed.

Lemma client_lazy_cached_merged_witness :
  __init__ _ (Ok base0) (Some sample_options) = Ok backend0 ∧
  cached_client backend0 = None ∧
  (∃ b', accesses _ plain_factory 3 backend0
           = (replicate 3 (Ok (redis_class, merged_params _ backend0)), b') ∧
         constructed b' = [(redis_class, merged_params _ backend0)]) ∧
  merged_params _ backend0 !! "sentinels" = Some three_sentinels ∧
  merged_params _ backend0 !! "host" = Some (VStr "localhost") ∧
  d_bases (redis_class, merged_params _ backend0).1 = [EnsuredRedisMixin; Redis].
Proof.
  assert (__init__ _ (Ok base0) (Some sample_options) = Ok backend0) as Hinit
    by (vm_compute; reflexivity).
  assert (connparams backend0 !! "redis_class" = None) as Hkw
    by (vm_compute; reflexivity).
  assert (∀ k p c', plain_factory k p = Ok c' → c'.1 = k) as Hinst
    by (intros k p c' H; by inversion H).
  destruct (client_lazy_cached_merged plain_factory fst (Ok base0)
              (Some sample_options) backend0 (redis_class, merged_params _ backend0)
              Hinit Hkw eq_refl Hinst)
    as ((Hlazy & _) & Hcached & (Hs & _ & _ & Hother) & _ & Hbases).
  split; [exact Hinit|]. split; [exact Hlazy|].
  split; [|split; [exact Hs|split; [|exact Hbases]]].
  - destruct (Hcached 2) as (b' & Hacc & _ & Hlog & _).
    exists b'. split; [exact Hacc | exact Hlog].
  - rewrite Hother by done. vm_compute. reflexivity.
Defined.

End ReferenceRuns.

(** * Further properties of the codec *)

Section HookFacts.
Variable rt : runtime.
Variable super_prepare_exception : pyval → pyval → M pyval.
Variable super_exception_to_python : pyval → M pyval.

(** X1.  [prepare_exception] always reaches the method of the base
    class, in the world wrapping left, with the exception itself or with
    an instance of exactly [Exception] holding one text: wrapping never
    keeps a failure from being stored, and whatever is raised is raised
    by the base class. *)
Theorem prepare_exception_reaches_base exc serializer w :
  ∃ v w1,
    _wrap_exc rt exc w = (Ok v, w1) ∧
    prepare_exception rt super_prepare_exception exc serializer w
      = super_prepare_exception v serializer w1 ∧
    (v = exc ∨
     type_of rt v = CException ∧ ∃ text, args_of w1 v = Some [VStr text]).
Proof.
  destruct (wrap_body rt exc w) as [[r|x] w1] eqn:Hbody.
  - exists r, w1. pose proof (wrap_exc_of_ok _ _ _ _ _ Hbody) as Hwrap.
    split; [done|]. split.
    + unfold prepare_exception. by rewrite (bind_ok _ _ _ _ _ Hwrap).
    + right.
      destruct (wrap_body_ok_inv _ _ _ _ _ Hbody) as (d & w0 & text & _ & _ & -> & ->).
      split; [done|]. exists text. apply args_of_new_exception.
  - exists exc, w1. pose proof (wrap_exc_of_raise _ _ _ _ _ Hbody) as Hwrap.
    split; [done|]. split; [|by left].
    unfold prepare_exception. by rewrite (bind_ok _ _ _ _ _ Hwrap).
Qed.

(** X2.  [exception_to_python] raises exactly what the method of the
    base class raises, which runs outside the [try]; when the base class
    returns, so does the hook, with what [_unwrap_exc] makes of the
    value. *)
Theorem exception_to_python_raises_as_base exc w :
  (∀ x w', exception_to_python rt super_exception_to_python exc w = (Raise x, w')
           ↔ super_exception_to_python exc w = (Raise x, w')) ∧
  (∀ v w1, super_exception_to_python exc w = (Ok v, w1) →
     ∃ r w', exception_to_python rt super_exception_to_python exc w = (Ok r, w') ∧
             _unwrap_exc rt v w1 = (Ok r, w')).
Proof.
  unfold exception_to_python, bind.
  destruct (super_exception_to_python exc w) as [[v|y] w1] eqn:Hsuper.
  - destruct (try_except_returns (unwrap_body rt v) v w1) as (r & w' & Hr).
    fold (_unwrap_exc rt v) in Hr. rewrite Hr. split.
    + intros x w''. split; discriminate.
    + intros v' w1' [= <- <-]. by exists r, w'.
  - split; [done|]. discriminate.
Qed.

End HookFacts.

Section CodecFacts.
Variable rt : runtime.

(** X3.  A payload that is JSON but names no module (a number, a list,
    a text, [null], a dict without [module], a [module] that is a list or
    a dict) makes [_unwrap_exc] return its input in the world [str()]
    left: nothing is imported and no foreign code is called. *)
Theorem unwrap_exc_without_module e w s w1 v :
  py_str rt e w = (Ok s, w1) →
  json_loads rt s = Ok v →
  names_no_module v →
  _unwrap_exc rt e w = (Ok e, w1).
Proof.
  intros Hs Hj Hno.
  rewrite (unwrap_exc_parsed _ _ _ _ _ _ Hs Hj), reconstruct_unfold.
  destruct v; try done. simpl in *.
  destruct (assoc kv "module") as [m|]; [|done].
  destruct m; done.
Qed.

(** X4.  [_unwrap_exc] reads its input through [str()] only: two
    objects with the same text are reconstructed alike, so any object
    whose text is an envelope is turned into what the envelope names,
    whether or not [_wrap_exc] made it. *)
Theorem unwrap_exc_reads_text_only e1 e2 w s w1 :
  py_str rt e1 w = (Ok s, w1) →
  py_str rt e2 w = (Ok s, w1) →
  unwrap_body rt e1 w = unwrap_body rt e2 w ∧
  (∀ r w', _unwrap_exc rt e1 w = (Ok r, w') → r ≠ e1 →
           _unwrap_exc rt e2 w = (Ok r, w')).
Proof.
  intros H1 H2.
  assert (unwrap_body rt e1 w = unwrap_body rt e2 w) as Heq
    by (by rewrite !unwrap_body_unfold, H1, H2).
  split; [done|]. intros r w'.
  unfold _unwrap_exc, try_except. rewrite <- Heq.
  destruct (unwrap_body rt e1 w) as [[r'|x] w'']; [done|].
  unfold ret. intros [= <- <-]. done.
Qed.


(** X6.  An exception that has [serialize] is never pickled: whatever
    [pickle.dumps] would do, [_wrap_exc] does the same, also when
    [serialize] raises. *)
Theorem wrap_exc_serialize_bypasses_pickle e w serialize dumps :
  lookup_attr rt w e "serialize" = Some serialize →
  _wrap_exc (with_pickle_dumps rt dumps) e w = _wrap_exc rt e w.
Proof.
  intros Hs. unfold _wrap_exc, try_except.
  rewrite !wrap_body_unfold. unfold wrap_data.
  change (lookup_attr (with_pickle_dumps rt dumps) w e "serialize")
    with (lookup_attr rt w e "serialize").
  by rewrite Hs.
Qed.

End CodecFacts.

(** * Further properties of the backend object *)

Section ClientFacts.
Context {Client : Type}.
Variable get_redis_via_sentinel : dynclass → gmap string pyval → result Client.

(** Updating twice is updating once. *)
Lemma merged_params_idemp (b : backend Client) :
  merged_params _ (set_connparams _ b (merged_params _ b)) = merged_params _ b.
Proof.
  unfold merged_params, set_connparams, sentinel_fields; simpl.
  by rewrite (assoc_L (∪)), (idemp_L (∪)).
Qed.

Lemma merged_params_after_call (b : backend Client) k p :
  merged_params _ (record_call _ (set_connparams _ b (merged_params _ b)) k p)
    = merged_params _ b.
Proof.
  unfold merged_params, record_call, set_connparams, sentinel_fields; simpl.
  by rewrite (assoc_L (∪)), (idemp_L (∪)).
Qed.

(** X8.  A client that could not be built is not stored: while the
    factory raises, every read of [client] raises the same exception,
    calls the factory again with the same parameters, and leaves the
    slot empty. *)
Theorem client_failure_is_not_cached (b : backend Client) x n :
  cached_client b = None →
  connparams b !! "redis_class" = None →
  get_redis_via_sentinel redis_class (merged_params _ b) = Raise x →
  ∃ b', accesses _ get_redis_via_sentinel n b = (replicate n (Raise x), b') ∧
        cached_client b' = None ∧
        constructed b' = (constructed b ++ replicate n (redis_class, merged_params _ b))%list.
Proof.
  intros Hnone Hkw Hfail.
  assert (merged_params _ b !! "redis_class" = None) as Hkw'
    by (by rewrite merged_params_other).
  clear Hkw. revert b Hnone Hkw' Hfail.
  induction n as [|n IH]; intros b Hnone Hkw Hfail; simpl.
  { exists b. by rewrite app_nil_r. }
  unfold client, client_body. rewrite Hnone.
  destruct (decide _) as [[v Hv]|_]; [congruence|]. rewrite Hfail.
  set (b1 := record_call _ _ _ _).
  assert (merged_params _ b1 = merged_params _ b) as Hm
    by apply merged_params_after_call.
  destruct (IH b1) as (b' & Hacc & Hnone' & Hlog).
  - done.
  - by rewrite Hm.
  - by rewrite Hm.
  - exists b'. rewrite Hacc. split; [done|]. split; [done|].
    rewrite Hlog, Hm. unfold b1. simpl. by rewrite <- app_assoc.
Qed.

(** X9.  When the connection parameters already hold [redis_class],
    the keyword is given twice: every read of [client] raises
    [TypeError], the factory is never called and nothing is stored. *)
Theorem client_keyword_clash (b : backend Client) v n :
  cached_client b = None →
  connparams b !! "redis_class" = Some v →
  ∃ b', accesses _ get_redis_via_sentinel n b
          = (replicate n (Raise (TypeError "got multiple values for keyword argument")), b') ∧
        cached_client b' = None ∧
        constructed b' = constructed b.
Proof.
  intros Hnone Hkw.
  assert (merged_params _ b !! "redis_class" = Some v) as Hkw'
    by (by rewrite merged_params_other).
  clear Hkw. revert b Hnone Hkw'.
  induction n as [|n IH]; intros b Hnone Hkw; simpl; [by exists b|].
  unfold client, client_body. rewrite Hnone.
  destruct (decide _) as [_|Hno]; [|by destruct Hno; eauto].
  destruct (IH (set_connparams _ b (merged_params _ b))) as (b' & Hacc & ? & ?).
  - done.
  - by rewrite merged_params_idemp.
  - exists b'. by rewrite Hacc.
Qed.

(** X10.  Without an argument, or with an empty one, the constructor
    reads the configured options. *)
Theorem init_falls_back_to_configuration self arg (m : gmap string pyval) s n :
  arg = None ∨ arg = Some ∅ →
  conf self !! "CELERY_RESULT_BACKEND_TRANSPORT_OPTIONS" = Some m →
  m !! "sentinels" = Some s → m !! "service_name" = Some n →
  __init__ Client (Ok self) arg =
    Ok (BackendObj (base_connparams self) (Some m) s n
          (default (VFloat "0.1") (m !! "socket_timeout")) None []).
Proof.
  intros Harg Hconf Hs Hn. apply init_ok; [|done..].
  unfold effective_options, py_or. rewrite Hconf.
  rewrite (truthy_of_lookup m _ _ Hs).
  by destruct Harg as [-> | ->].
Qed.

(** X11.  The argument and the configuration are not merged: a
    non-empty argument without [sentinels] fails with [KeyError]
    whatever the configuration holds, and one with [sentinels] but
    without [service_name] likewise. *)
Theorem init_argument_hides_configuration self (a : gmap string pyval) :
  a ≠ ∅ →
  (a !! "sentinels" = None →
   __init__ Client (Ok self) (Some a) = Raise (KeyError (VStr "sentinels"))) ∧
  (is_Some (a !! "sentinels") → a !! "service_name" = None →
   __init__ Client (Ok self) (Some a) = Raise (KeyError (VStr "service_name"))).
Proof.
  intros Hne.
  assert (effective_options self (Some a) = Some a) as He.
  { unfold effective_options, py_or. simpl. by rewrite bool_decide_eq_true_2. }
  unfold __init__; simpl. rewrite He; simpl. split.
  - by intros ->.
  - intros [s ->] ->. done.
Qed.

(** X12.  With no options at all (no argument or an empty one, nothing
    or an empty dict configured) the constructor reads the empty dict
    and fails with [KeyError] on [sentinels]. *)
Theorem init_without_options self arg :
  truthy arg = false →
  truthy (conf self !! "CELERY_RESULT_BACKEND_TRANSPORT_OPTIONS") = false →
  effective_options self arg = Some ∅ ∧
  __init__ Client (Ok self) arg = Raise (KeyError (VStr "sentinels")).
Proof.
  intros Harg Hconf.
  assert (effective_options self arg = Some ∅) as He
    by (unfold effective_options, py_or; by rewrite Harg, Hconf).
  split; [done|]. unfold __init__; simpl. by rewrite He.
Qed.

End ClientFacts.

(** ** The further properties on the reference runtime *)

Section FurtherRuns.

Lemma unwrap_exc_without_module_witness :
  _unwrap_exc Reference.py3 Samples.listy Samples.w_list
    = (Ok Samples.listy, Samples.w_list).
Proof.
  apply (unwrap_exc_without_module Reference.py3 Samples.listy Samples.w_list
           "[1, 2]" Samples.w_list (VList [VInt 1; VInt 2])).
  - vm_compute. reflexivity.
  - vm_compute. reflexivity.
  - exact I.
Defined.

Lemma unwrap_exc_reads_text_only_witness :
  unwrap_body Reference.py3 Reference.coded_wrapper Samples.w_twins
    = unwrap_body Reference.py3 Samples.twin Samples.w_twins ∧
  ∃ w', _unwrap_exc Reference.py3 Samples.twin Samples.w_twins
          = (Ok (VObj Reference.CodedError 7), w').
Proof.
  assert (py_str Reference.py3 Reference.coded_wrapper Samples.w_twins
            = (Ok Reference.coded_text, Samples.w_twins)) as H1
    by (vm_compute; reflexivity).
  assert (py_str Reference.py3 Samples.twin Samples.w_twins
            = (Ok Reference.coded_text, Samples.w_twins)) as H2
    by (vm_compute; reflexivity).
  destruct (unwrap_exc_reads_text_only Reference.py3 Reference.coded_wrapper
              Samples.twin Samples.w_twins Reference.coded_text Samples.w_twins H1 H2)
    as [Hbody Hsame].
  split; [exact Hbody|].
  eexists. apply Hsame; [vm_compute; reflexivity|discriminate].
Defined.


Lemma wrap_exc_serialize_bypasses_pickle_witness :
  _wrap_exc (with_pickle_dumps Reference.py3 Samples.no_pickle) Reference.coded Reference.w0
    = _wrap_exc Reference.py3 Reference.coded Reference.w0.
Proof.
  apply (wrap_exc_serialize_bypasses_pickle Reference.py3 Reference.coded
           Reference.w0 (VMethod 0 Reference.coded) Samples.no_pickle).
  vm_compute. reflexivity.
Defined.

Lemma client_failure_is_not_cached_witness :
  ∃ b', accesses _ Samples.failing_factory 2 Samples.unreachable_backend
          = (replicate 2 (Raise (Exn "ConnectionError" VNone)), b') ∧
        cached_client b' = None ∧
        constructed b'
          = (constructed Samples.unreachable_backend
             ++ replicate 2 (redis_class, merged_params _ Samples.unreachable_backend))%list.
Proof.
  apply (client_failure_is_not_cached Samples.failing_factory
           Samples.unreachable_backend (Exn "ConnectionError" VNone) 2).
  - reflexivity.
  - vm_compute. reflexivity.
  - reflexivity.
Defined.

Lemma client_keyword_clash_witness :
  ∃ b', accesses _ Samples.failing_factory 2 Samples.clashing_backend
          = (replicate 2 (Raise (TypeError "got multiple values for keyword argument")), b') ∧
        cached_client b' = None ∧
        constructed b' = constructed Samples.clashing_backend.
Proof.
  apply (client_keyword_clash Samples.failing_factory Samples.clashing_backend VNone 2).
  - reflexivity.
  - vm_compute. reflexivity.
Defined.

Lemma init_falls_back_to_configuration_witness :
  __init__ unit (Ok Samples.configured_base) (Some ∅) =
    Ok (BackendObj (base_connparams Samples.configured_base) (Some sample_options)
          three_sentinels (VStr "master")
          (default (VFloat "0.1") (sample_options !! "socket_timeout")) None []).
Proof.
  apply (init_falls_back_to_configuration Samples.configured_base (Some ∅)
           sample_options three_sentinels (VStr "master")).
  - by right.
  - vm_compute. reflexivity.
  - vm_compute. reflexivity.
  - vm_compute. reflexivity.
Defined.

Lemma init_argument_hides_configuration_witness :
  __init__ unit (Ok Samples.configured_base) (Some no_sentinels)
    = Raise (KeyError (VStr "sentinels")).
Proof.
  assert (no_sentinels ≠ (∅ : gmap string pyval)) as Hne.
  { intros H. assert (no_sentinels !! "service_name" = (∅ : gmap string pyval) !! "service_name")
      as Hl by (by rewrite H). vm_compute in Hl. discriminate. }
  destruct (init_argument_hides_configuration (Client := unit)
              Samples.configured_base no_sentinels Hne) as [Hmissing _].
  apply Hmissing. vm_compute. reflexivity.
Defined.

Lemma init_without_options_witness :
  effective_options base0 None = Some ∅ ∧
  __init__ unit (Ok base0) None = Raise (KeyError (VStr "sentinels")).
Proof.
  apply (init_without_options base0 None).
  - reflexivity.
  - vm_compute. reflexivity.
Defined.

End FurtherRuns.
